(** * AirNow sensor platform (homeassistant/components/airnow/sensor.py)

    A shallow embedding of the sensor platform of the AirNow integration:
    the static table [SENSOR_TYPES] of entity descriptions, the entity
    class [AirNowSensor] and the platform entry point [async_setup_entry].

    Python values are modelled by [PyVal], dictionaries with string keys by
    stdpp's [gmap string _], sets by [gset], exceptions by the result type
    [Exc], and code that reads or changes objects owned by the host by the
    state-and-exception monad [M] over [World]. *)

From Stdlib Require Import ZArith Floats Ascii String List.
From stdpp Require Import gmap strings list.

(** ** Python values *)

Inductive PyVal :=
| PyNone
| PyBool (b : bool)
| PyInt (z : Z)
| PyFloat (f : float)
| PyStr (s : string).

(** The exceptions the module can raise: subscripting a [dict] with a key
    it does not hold. *)
Inductive PyExc :=
| KeyError (k : string).

Inductive Exc (A : Type) :=
| Ok (a : A)
| Raise (e : PyExc).
Arguments Ok {A} a.
Arguments Raise {A} e.

Definition exc_bind {A B} (x : Exc A) (f : A -> Exc B) : Exc B :=
  match x with
  | Ok a => f a
  | Raise e => Raise e
  end.

(** [d.get(k)]: the value, or [None] when [k] is not a key of [d]. *)
Definition dict_get (d : gmap string PyVal) (k : string) : PyVal :=
  match d !! k with
  | Some v => v
  | None => PyNone
  end.

(** [d[k]]: the value, or [KeyError(k)] when [k] is not a key of [d]. *)
Definition dict_getitem {V} (d : gmap string V) (k : string) : Exc V :=
  match d !! k with
  | Some v => Ok v
  | None => Raise (KeyError k)
  end.

(** ** str.lower, on ASCII text *)

Definition ascii_lower (c : ascii) : ascii :=
  let n := nat_of_ascii c in
  if (65 <=? n)%nat && (n <=? 90)%nat then ascii_of_nat (n + 32) else c.

Fixpoint str_lower (s : string) : string :=
  match s with
  | EmptyString => EmptyString
  | String c s' => String (ascii_lower c) (str_lower s')
  end.

(** ** str() of numbers

    [int_str] is [str] on [int]; [float_repr] is [float.__repr__]: the
    shortest decimal string that reads back as the same binary64 value (the
    closest one among several of that length), printed positionally when the
    decimal point falls within -4 < decpt <= 16 and with an exponent
    otherwise. *)

Section Numbers.
Local Open Scope Z_scope.

Definition digit_char (d : Z) : ascii := ascii_of_nat (48 + Z.to_nat d).

Fixpoint Z_digits_go (fuel : nat) (n : Z) (acc : string) : string :=
  match fuel with
  | O => acc
  | S fuel' =>
      let acc' := String (digit_char (n mod 10)) acc in
      if n / 10 =? 0 then acc' else Z_digits_go fuel' (n / 10) acc'
  end.

Definition Z_digits (n : Z) : string :=
  Z_digits_go (S (Z.to_nat (Z.log2 n))) n EmptyString.

Definition int_str (n : Z) : string :=
  if n <? 0 then String "-" (Z_digits (- n)) else Z_digits n.

(** Positive powers of two and ten as numerator and denominator. *)
Definition scale2 (e : Z) : Z * Z :=
  if 0 <=? e then (2 ^ e, 1) else (1, 2 ^ (- e)).
Definition scale10 (p : Z) : Z * Z :=
  if 0 <=? p then (10 ^ p, 1) else (1, 10 ^ (- p)).

(** Compares [c * 10^p] with [x * 2^e]. *)
Definition cmp_dec_bin (c p x e : Z) : comparison :=
  let '(tn, td) := scale10 p in
  let '(un, ud) := scale2 e in
  (c * tn * ud) ?= (x * un * td).

(** The least [d], from a lower estimate on, with [x * 2^e < 10^d]. *)
Fixpoint find_decpt (fuel : nat) (d x e : Z) : Z :=
  match fuel with
  | O => d
  | S fuel' =>
      match cmp_dec_bin 1 d x e with
      | Gt => d
      | _ => find_decpt fuel' (d + 1) x e
      end
  end.

(** Whether [c * 10^p] reads back as the float whose rounding interval is
    [lo * 2^e .. hi * 2^e]; the end points belong to it when the mantissa is
    even (round-half-even). *)
Definition in_range (even : bool) (c p lo hi e : Z) : bool :=
  match cmp_dec_bin c p lo e, cmp_dec_bin c p hi e with
  | Gt, Lt => true
  | Eq, Lt | Gt, Eq => even
  | _, _ => false
  end.

(** Tries [k] significant digits for each [k] of [ks] in turn. *)
Fixpoint shortest (ks : list Z) (even : bool) (d lo mid hi e : Z) : Z * Z :=
  match ks with
  | [] => (0, d)
  | k :: ks' =>
      let p := d - k in
      let '(tn, td) := scale10 p in
      let '(un, ud) := scale2 e in
      let c := (mid * un * td) / (ud * tn) in
      let okl := in_range even c p lo hi e in
      let okh := in_range even (c + 1) p lo hi e in
      let pick :=
        if okl && okh then
          match cmp_dec_bin (2 * c + 1) p (2 * mid) e with
          | Gt => Some c
          | Lt => Some (c + 1)
          | Eq => Some (if Z.even c then c else c + 1)
          end
        else if okl then Some c
        else if okh then Some (c + 1)
        else None in
      match pick with
      | Some r => if r =? 10 ^ k then (1, d + 1) else (r, d)
      | None => shortest ks' even d lo mid hi e
      end
  end.

Fixpoint strip_zeros (fuel : nat) (n : Z) : Z :=
  match fuel with
  | O => n
  | S fuel' =>
      if (n mod 10 =? 0) && negb (n =? 0) then strip_zeros fuel' (n / 10) else n
  end.

(** The digits of [m * 2^e] and the position of its decimal point: the
    value is [0.digits * 10^decpt]. Everything is counted in quarters of
    the unit in the last place, so that the two half-way points to the
    neighbouring floats are integers. *)
Definition float_digits (m e : Z) : string * Z :=
  let mid := 4 * m in
  let hi := 4 * m + 2 in
  let lo := if (m =? 2 ^ 52) && (-1074 <? e) then 4 * m - 1 else 4 * m - 2 in
  let d := find_decpt 8 ((Z.log2 m + e) * 30103 / 100000 - 1) mid (e - 2) in
  let '(r, d') := shortest (seqZ 1 17) (Z.even m) d lo mid hi (e - 2) in
  (Z_digits (strip_zeros 20 r), d').

Definition zeros (n : Z) : string :=
  string_of_list_ascii (replicate (Z.to_nat n) "0"%char).
Definition take_s (n : Z) (s : string) : string :=
  string_of_list_ascii (take (Z.to_nat n) (list_ascii_of_string s)).
Definition drop_s (n : Z) (s : string) : string :=
  string_of_list_ascii (drop (Z.to_nat n) (list_ascii_of_string s)).
Definition len_s (s : string) : Z := Z.of_nat (String.length s).

Definition format_short (digits : string) (decpt : Z) : string :=
  let n := len_s digits in
  if (decpt <=? -4) || (16 <? decpt) then
    let ex := decpt - 1 in
    let mant :=
      if n =? 1 then digits else take_s 1 digits +:+ "." +:+ drop_s 1 digits in
    let exs := Z_digits (Z.abs ex) in
    mant +:+ "e" +:+ (if ex <? 0 then "-" else "+")
         +:+ (if len_s exs <? 2 then "0" +:+ exs else exs)
  else if decpt <=? 0 then "0." +:+ zeros (- decpt) +:+ digits
  else if n <=? decpt then digits +:+ zeros (decpt - n) +:+ ".0"
  else take_s decpt digits +:+ "." +:+ drop_s decpt digits.

Definition float_repr (f : float) : string :=
  match Prim2SF f with
  | S754_nan => "nan"
  | S754_infinity s => if s then "-inf" else "inf"
  | S754_zero s => if s then "-0.0" else "0.0"
  | S754_finite s m e =>
      let '(ds, d) := float_digits (Zpos m) e in
      (if s then "-" else "") +:+ format_short ds d
  end.

End Numbers.

(** [format(v, "")], what an f-string does with a replacement field that
    has no format specification. *)
Definition py_str (v : PyVal) : string :=
  match v with
  | PyNone => "None"
  | PyBool true => "True"
  | PyBool false => "False"
  | PyInt z => int_str z
  | PyFloat f => float_repr f
  | PyStr s => s
  end.

(** ** Constants imported from other modules

    [ATTR_API_*], [DEFAULT_NAME] and [DOMAIN] come from [.const], the two
    units from [homeassistant.const]. The development is parametric in
    them. *)

Class Const := {
  ATTR_API_AQI : string;
  ATTR_API_AQI_DESCRIPTION : string;
  ATTR_API_AQI_LEVEL : string;
  ATTR_API_O3 : string;
  ATTR_API_PM25 : string;
  DEFAULT_NAME : string;
  DOMAIN : string;
  CONCENTRATION_MICROGRAMS_PER_CUBIC_METER : string;
  CONCENTRATION_PARTS_PER_MILLION : string
}.

(** Modelled from the spec: [const.py] of the integration and
    [homeassistant/const.py] are not among the sources. The spec names the
    AQI key ["AQI"] and writes the snapshot fields [AQI], [AQI_DESCRIPTION]
    and [AQI_LEVEL]; the PM2.5 and ozone keys, the domain and the default
    name follow the names the spec and the module use for them. *)
Definition airnow_const : Const := {|
  ATTR_API_AQI := "AQI";
  ATTR_API_AQI_DESCRIPTION := "AQI_DESCRIPTION";
  ATTR_API_AQI_LEVEL := "AQI_LEVEL";
  ATTR_API_O3 := "O3";
  ATTR_API_PM25 := "PM2.5";
  DEFAULT_NAME := "AirNow";
  DOMAIN := "airnow";
  CONCENTRATION_MICROGRAMS_PER_CUBIC_METER := "µg/m³";
  CONCENTRATION_PARTS_PER_MILLION := "ppm"
|}.

(** ** Module constants *)

Definition ATTRIBUTION : string := "Data provided by AirNow".

Definition PARALLEL_UPDATES : Z := 1.

Definition ATTR_DESCR : string := "description".
Definition ATTR_LEVEL : string := "level".

(** ** Data model *)

Inductive SensorStateClass := MEASUREMENT | TOTAL | TOTAL_INCREASING.

Inductive DeviceEntryType := SERVICE.

(** [AirNowEntityDescription]: the fields of [SensorEntityDescription] the
    table sets, and the two of [AirNowEntityDescriptionMixin]. A snapshot
    (the coordinator's [data]) is a [dict] with string keys. *)
Record AirNowEntityDescription := {
  key : string;
  translation_key : string;
  icon : string;
  native_unit_of_measurement : string;
  state_class : SensorStateClass;
  value_fn : gmap string PyVal -> Exc PyVal;
  extra_state_attributes_fn :
    option (gmap string PyVal -> Exc (gmap string PyVal))
}.

Record DeviceInfo := {
  entry_type : DeviceEntryType;
  identifiers : gset (string * string);
  manufacturer : string;
  name : string
}.

(** What the module reads of an [AirNowDataUpdateCoordinator]. *)
Record AirNowDataUpdateCoordinator := {
  latitude : PyVal;
  longitude : PyVal;
  data : gmap string PyVal
}.

(** Objects are shared by reference: an entity holds the identity of its
    coordinator, and the coordinator itself lives in the [World]. *)
Definition loc := nat.

Record AirNowSensor := {
  coordinator : loc;
  entity_description : AirNowEntityDescription;
  _attr_unique_id : string;
  _attr_device_info : DeviceInfo
}.

Definition _attr_attribution : string := ATTRIBUTION.
Definition _attr_has_entity_name : bool := true.

(** [hass.data], as far as the platform looks into it: domain, then config
    entry id, then the coordinator. *)
Record HomeAssistant := {
  hass_data : gmap string (gmap string loc)
}.

Record ConfigEntry := {
  entry_id : string
}.

(** The state the module runs in: the coordinator objects, the module's
    global [SENSOR_TYPES] binding, and what the host has been handed through
    its [async_add_entities] callback (entities and the
    [update_before_add] flag, one element per call). *)
Record World := {
  coordinators : loc -> AirNowDataUpdateCoordinator;
  module_SENSOR_TYPES : list AirNowEntityDescription;
  platform_entities : list (list AirNowSensor * bool)
}.

(** ** State and exceptions *)

Definition M (A : Type) : Type := World -> Exc A * World.

Definition ret {A} (a : A) : M A := fun w => (Ok a, w).

Definition bind {A B} (m : M A) (f : A -> M B) : M B :=
  fun w =>
    match m w with
    | (Ok a, w') => f a w'
    | (Raise e, w') => (Raise e, w')
    end.

Notation "'let*' x ':=' c 'in' k" := (bind c (fun x => k))
  (at level 10, x name, c at level 200, k at level 200, only parsing).

Definition lift {A} (x : Exc A) : M A := fun w => (x, w).

Definition read {A} (f : World -> A) : M A := fun w => (Ok (f w), w).

Fixpoint mapM {A B} (f : A -> M B) (l : list A) : M (list B) :=
  match l with
  | [] => ret []
  | a :: l' =>
      let* b := f a in
      let* bs := mapM f l' in
      ret (b :: bs)
  end.

(** ** The module *)

Section Sensor.
Context {K : Const}.

Definition description_aqi : AirNowEntityDescription := {|
  key := ATTR_API_AQI;
  translation_key := "aqi";
  icon := "mdi:blur";
  native_unit_of_measurement := "aqi";
  state_class := MEASUREMENT;
  value_fn := fun data => Ok (dict_get data ATTR_API_AQI);
  extra_state_attributes_fn := Some (fun data =>
    exc_bind (dict_getitem data ATTR_API_AQI_DESCRIPTION) (fun descr =>
    exc_bind (dict_getitem data ATTR_API_AQI_LEVEL) (fun level =>
    Ok (<[ATTR_LEVEL := level]> (<[ATTR_DESCR := descr]> ∅)))))
|}.

Definition description_pm25 : AirNowEntityDescription := {|
  key := ATTR_API_PM25;
  translation_key := "pm25";
  icon := "mdi:blur";
  native_unit_of_measurement := CONCENTRATION_MICROGRAMS_PER_CUBIC_METER;
  state_class := MEASUREMENT;
  value_fn := fun data => Ok (dict_get data ATTR_API_PM25);
  extra_state_attributes_fn := None
|}.

Definition description_o3 : AirNowEntityDescription := {|
  key := ATTR_API_O3;
  translation_key := "o3";
  icon := "mdi:blur";
  native_unit_of_measurement := CONCENTRATION_PARTS_PER_MILLION;
  state_class := MEASUREMENT;
  value_fn := fun data => Ok (dict_get data ATTR_API_O3);
  extra_state_attributes_fn := None
|}.

Definition SENSOR_TYPES : list AirNowEntityDescription :=
  [description_aqi; description_pm25; description_o3].

(** Executing the module body binds the global. *)
Definition module_load (w : World) : World := {|
  coordinators := coordinators w;
  module_SENSOR_TYPES := SENSOR_TYPES;
  platform_entities := platform_entities w
|}.

(** [AirNowSensor.__init__]; [super().__init__(coordinator)] stores the
    coordinator reference. *)
Definition __init__ (coordinator : loc) (description : AirNowEntityDescription)
  : M AirNowSensor :=
  let* c := read (fun w => coordinators w coordinator) in
  let unique_id :=
    py_str (latitude c) +:+ "-" +:+ py_str (longitude c) +:+ "-"
      +:+ str_lower (key description) in
  ret {|
    coordinator := coordinator;
    entity_description := description;
    _attr_unique_id := unique_id;
    _attr_device_info := {|
      entry_type := SERVICE;
      identifiers := {[ (DOMAIN, unique_id) ]};
      manufacturer := DEFAULT_NAME;
      name := DEFAULT_NAME
    |}
  |}.

Definition native_value (self : AirNowSensor) : M PyVal :=
  let* c := read (fun w => coordinators w (coordinator self)) in
  lift (value_fn (entity_description self) (data c)).

Definition extra_state_attributes (self : AirNowSensor)
  : M (option (gmap string PyVal)) :=
  match extra_state_attributes_fn (entity_description self) with
  | Some fn =>
      let* c := read (fun w => coordinators w (coordinator self)) in
      let* attrs := lift (fn (data c)) in
      ret (Some attrs)
  | None => ret None
  end.

Definition async_setup_entry (hass : HomeAssistant) (config_entry : ConfigEntry)
    (async_add_entities : list AirNowSensor -> bool -> M unit) : M unit :=
  let* by_entry := lift (dict_getitem (hass_data hass) DOMAIN) in
  let* coordinator := lift (dict_getitem by_entry (entry_id config_entry)) in
  let* table := read module_SENSOR_TYPES in
  let* entities := mapM (fun description => __init__ coordinator description) table in
  async_add_entities entities false.

End Sensor.

(** ** The host's side *)

(** The [async_add_entities] callback of the entity platform: the host
    takes the entities over. *)
Definition platform_add_entities (new_entities : list AirNowSensor)
    (update_before_add : bool) : M unit :=
  fun w => (Ok tt, {|
    coordinators := coordinators w;
    module_SENSOR_TYPES := module_SENSOR_TYPES w;
    platform_entities := platform_entities w ++ [(new_entities, update_before_add)]
  |}).

(** A refresh of one coordinator replaces its snapshot. *)
Definition coordinator_refresh (c : loc) (new_data : gmap string PyVal)
    (w : World) : World := {|
  coordinators := fun c' =>
    if Nat.eqb c' c then {|
      latitude := latitude (coordinators w c);
      longitude := longitude (coordinators w c);
      data := new_data
    |} else coordinators w c';
  module_SENSOR_TYPES := module_SENSOR_TYPES w;
  platform_entities := platform_entities w
|}.

(** What can happen while the module is loaded: the host calls into it, or
    a coordinator refreshes. *)
Inductive Call :=
| CallSetupEntry (hass : HomeAssistant) (config_entry : ConfigEntry)
| CallInit (coordinator : loc) (description : AirNowEntityDescription)
| CallNativeValue (self : AirNowSensor)
| CallExtraStateAttributes (self : AirNowSensor)
| HostRefresh (coordinator : loc) (new_data : gmap string PyVal).

Definition run_call {K : Const} (c : Call) (w : World) : World :=
  match c with
  | CallSetupEntry hass config_entry =>
      snd (async_setup_entry hass config_entry platform_add_entities w)
  | CallInit coordinator description => snd (__init__ coordinator description w)
  | CallNativeValue self => snd (native_value self w)
  | CallExtraStateAttributes self => snd (extra_state_attributes self w)
  | HostRefresh coordinator new_data => coordinator_refresh coordinator new_data w
  end.

Definition run_calls {K : Const} (cs : list Call) (w : World) : World :=
  fold_left (fun w c => run_call c w) cs w.

(** ** Sample inputs *)

(** The snapshot [{AQI: 42, AQI_DESCRIPTION: "Moderate", AQI_LEVEL: 2}]. *)
Definition scenario_snapshot {K : Const} : gmap string PyVal :=
  <[ATTR_API_AQI_LEVEL := PyInt 2]>
    (<[ATTR_API_AQI_DESCRIPTION := PyStr "Moderate"]>
      (<[ATTR_API_AQI := PyInt 42]> ∅)).

(** A world whose coordinators all sit at latitude 40.0, longitude -75.0
    and hold the snapshot [d]. *)
Definition sample_world {K : Const} (d : gmap string PyVal) : World := {|
  coordinators := fun _ => {|
    latitude := PyFloat 40.0;
    longitude := PyFloat (-75.0);
    data := d
  |};
  module_SENSOR_TYPES := SENSOR_TYPES;
  platform_entities := []
|}.

(** [hass.data] with coordinator 0 under the entry id ["entry"]. *)
Definition sample_hass {K : Const} : HomeAssistant := {|
  hass_data := {[ DOMAIN := {[ "entry" := 0%nat ]} ]}
|}.

Definition sample_entry : ConfigEntry := {| entry_id := "entry" |}.

(** * Properties *)

(** ** Strings *)

Lemma append_inv_head (p a b : string) : p +:+ a = p +:+ b -> a = b.
Proof.
  induction p as [|c p IH]; simpl; [done|].
  intros H. injection H as H. by apply IH.
Qed.

Lemma append_assoc (a b c : string) : (a +:+ b) +:+ c = a +:+ (b +:+ c).
Proof.
  induction a as [|x a IH]; [done|].
  change (String x ((a +:+ b) +:+ c) = String x (a +:+ (b +:+ c))).
  by rewrite IH.
Qed.

Example str_lower_AQI : str_lower "AQI" = "aqi".
Proof. reflexivity. Qed.

Example str_lower_PM25 : str_lower "PM2.5" = "pm2.5".
Proof. reflexivity. Qed.

Example float_repr_40 : float_repr 40.0 = "40.0".
Proof. vm_compute. reflexivity. Qed.

Example float_repr_minus_75 : float_repr (-75.0) = "-75.0".
Proof. vm_compute. reflexivity. Qed.

Example float_repr_tenth : float_repr 0x1.999999999999ap-4 = "0.1".
Proof. vm_compute. reflexivity. Qed.

Example float_repr_big : float_repr 1e16 = "1e+16".
Proof. vm_compute. reflexivity. Qed.

Example int_str_42 : int_str (-42) = "-42".
Proof. reflexivity. Qed.

(** ** Dictionaries *)

Lemma dict_get_absent (d : gmap string PyVal) (k : string) :
  d !! k = None -> dict_get d k = PyNone.
Proof. unfold dict_get. by intros ->. Qed.

Lemma dict_get_null (d : gmap string PyVal) (k : string) :
  dict_get (<[k := PyNone]> d) k = PyNone.
Proof. unfold dict_get. by rewrite lookup_insert_eq. Qed.

Lemma dict_get_present (d : gmap string PyVal) (k : string) (v : PyVal) :
  d !! k = Some v -> dict_get d k = v.
Proof. unfold dict_get. by intros ->. Qed.

Lemma dict_getitem_present {V} (d : gmap string V) (k : string) (v : V) :
  d !! k = Some v -> dict_getitem d k = Ok v.
Proof. unfold dict_getitem. by intros ->. Qed.

Lemma dict_getitem_absent {V} (d : gmap string V) (k : string) :
  d !! k = None -> dict_getitem d k = Raise (KeyError k).
Proof. unfold dict_getitem. by intros ->. Qed.

(** ** The descriptor table *)

Section Table.
Context {K : Const}.

(** Every [value_fn] of the table is [data.get] at the descriptor's own
    key. *)
Lemma value_fn_table (d : AirNowEntityDescription) (snapshot : gmap string PyVal) :
  In d SENSOR_TYPES -> value_fn d snapshot = Ok (dict_get snapshot (key d)).
Proof.
  intros [<-|[<-|[<-|[]]]]; reflexivity.
Qed.

Lemma keys_SENSOR_TYPES :
  map key SENSOR_TYPES = [ATTR_API_AQI; ATTR_API_PM25; ATTR_API_O3].
Proof. reflexivity. Qed.

(** The keys of the table are as distinct as the three imported names. *)
Lemma NoDup_keys_iff :
  NoDup (map key SENSOR_TYPES) <->
  ATTR_API_AQI <> ATTR_API_PM25 /\ ATTR_API_AQI <> ATTR_API_O3 /\
  ATTR_API_PM25 <> ATTR_API_O3.
Proof.
  rewrite keys_SENSOR_TYPES, !NoDup_cons, !not_elem_of_cons.
  split.
  - intros ((H1 & H2 & _) & (H3 & _) & _). done.
  - intros (H1 & H2 & H3). repeat split; try done; try apply not_elem_of_nil.
    apply NoDup_nil_2.
Qed.

(** C3: for every descriptor of the table, [value_fn] on a snapshot that
    does not hold the descriptor's key returns [None], the "unknown" value,
    and does not raise. *)
Theorem value_fn_missing_key (d : AirNowEntityDescription)
    (snapshot : gmap string PyVal) :
  In d SENSOR_TYPES ->
  snapshot !! key d = None ->
  value_fn d snapshot = Ok PyNone.
Proof.
  intros Hd Hk. rewrite (value_fn_table d snapshot Hd).
  by rewrite (dict_get_absent _ _ Hk).
Qed.

(** C8: for every descriptor of the table, [value_fn] gives the same
    "unknown" result, [None], on a snapshot that maps the descriptor's key
    to [None] and on one that lacks the key. *)
Theorem value_fn_null_same_as_absent (d : AirNowEntityDescription)
    (snapshot : gmap string PyVal) :
  In d SENSOR_TYPES ->
  value_fn d (<[key d := PyNone]> snapshot) = value_fn d (delete (key d) snapshot)
  /\ value_fn d (delete (key d) snapshot) = Ok PyNone.
Proof.
  intros Hd. rewrite !(value_fn_table d _ Hd). split.
  - rewrite dict_get_null. by rewrite dict_get_absent by apply lookup_delete_eq.
  - by rewrite dict_get_absent by apply lookup_delete_eq.
Qed.

End Table.

(** ** The entity *)

Section Entity.
Context {K : Const}.

(** The constructor returns, and leaves the world as it was. *)
Lemma init_run (c : loc) (d : AirNowEntityDescription) (w : World) :
  exists self,
    __init__ c d w = (Ok self, w)
    /\ coordinator self = c
    /\ entity_description self = d
    /\ _attr_unique_id self =
         py_str (latitude (coordinators w c)) +:+ "-"
           +:+ py_str (longitude (coordinators w c)) +:+ "-"
           +:+ str_lower (key d)
    /\ _attr_device_info self = {|
         entry_type := SERVICE;
         identifiers := {[ (DOMAIN, _attr_unique_id self) ]};
         manufacturer := DEFAULT_NAME;
         name := DEFAULT_NAME
       |}.
Proof. eexists. repeat split. Qed.

Lemma init_fst_inv (c : loc) (d : AirNowEntityDescription) (w : World)
    (self : AirNowSensor) :
  __init__ c d w = (Ok self, w) ->
  coordinator self = c /\ entity_description self = d.
Proof.
  destruct (init_run c d w) as (s & Hs & Hc & Hd & _).
  rewrite Hs. intros [= <-]. done.
Qed.

Lemma native_value_run (self : AirNowSensor) (w : World) :
  native_value self w =
    (value_fn (entity_description self) (data (coordinators w (coordinator self))), w).
Proof. reflexivity. Qed.

Lemma extra_state_attributes_none (self : AirNowSensor) (w : World) :
  extra_state_attributes_fn (entity_description self) = None ->
  extra_state_attributes self w = (Ok None, w).
Proof. unfold extra_state_attributes. by intros ->. Qed.

Lemma extra_state_attributes_some (self : AirNowSensor) (w : World) fn :
  extra_state_attributes_fn (entity_description self) = Some fn ->
  extra_state_attributes self w =
    (match fn (data (coordinators w (coordinator self))) with
     | Ok attrs => Ok (Some attrs)
     | Raise e => Raise e
     end, w).
Proof.
  unfold extra_state_attributes. intros ->.
  unfold bind, read, lift, ret. by destruct (fn _).
Qed.

(** The attributes of the AQI descriptor on a snapshot that holds both
    fields. *)
Lemma aqi_attributes_present (snapshot : gmap string PyVal) (descr level : PyVal) fn :
  extra_state_attributes_fn description_aqi = Some fn ->
  snapshot !! ATTR_API_AQI_DESCRIPTION = Some descr ->
  snapshot !! ATTR_API_AQI_LEVEL = Some level ->
  fn snapshot = Ok {[ "description" := descr; "level" := level ]}.
Proof.
  intros [= <-] Hd Hl.
  rewrite (dict_getitem_present _ _ _ Hd), (dict_getitem_present _ _ _ Hl).
  reflexivity.
Qed.

(** The attributes of the AQI descriptor on a snapshot that lacks the
    description field. *)
Lemma aqi_attributes_no_description (snapshot : gmap string PyVal) fn :
  extra_state_attributes_fn description_aqi = Some fn ->
  snapshot !! ATTR_API_AQI_DESCRIPTION = None ->
  fn snapshot = Raise (KeyError ATTR_API_AQI_DESCRIPTION).
Proof.
  intros [= <-] Hd. by rewrite (dict_getitem_absent _ _ Hd).
Qed.

(** The device records of two entities of one coordinator agree on
    everything but the identifiers, and agree on those exactly when the
    lower-cased keys of their descriptors agree. *)
Lemma device_info_eq_iff (c : loc) (d1 d2 : AirNowEntityDescription) (w : World)
    (s1 s2 : AirNowSensor) :
  __init__ c d1 w = (Ok s1, w) ->
  __init__ c d2 w = (Ok s2, w) ->
  (_attr_device_info s1 = _attr_device_info s2 <->
   str_lower (key d1) = str_lower (key d2)).
Proof.
  intros H1 H2.
  destruct (init_run c d1 w) as (x1 & E1 & _ & _ & U1 & D1).
  destruct (init_run c d2 w) as (x2 & E2 & _ & _ & U2 & D2).
  rewrite E1 in H1. rewrite E2 in H2.
  injection H1 as ->. injection H2 as ->.
  rewrite D1, D2, U1, U2. split.
  - intros H. apply (f_equal identifiers) in H. cbn [identifiers] in H.
    apply (inj singleton) in H. injection H as H.
    by do 4 apply append_inv_head in H.
  - by intros ->.
Qed.

End Entity.

(** ** Setting up a config entry *)

Section Setup.
Context {K : Const}.

(** The list comprehension over the table: one entity per description, in
    order, each as the constructor builds it; the world is left alone. *)
Lemma mapM_init_run (c : loc) (table : list AirNowEntityDescription) (w : World) :
  exists entities,
    mapM (fun description => __init__ c description) table w = (Ok entities, w)
    /\ map entity_description entities = table
    /\ Forall (fun self =>
         coordinator self = c /\
         __init__ c (entity_description self) w = (Ok self, w)) entities.
Proof.
  induction table as [|d table (entities & Hrun & Hmap & Hall)].
  - exists []. repeat split. constructor.
  - destruct (init_run c d w) as (self & Hself & Hc & Hd & _).
    exists (self :: entities). split; [|split].
    + simpl. unfold bind. rewrite Hself, Hrun. reflexivity.
    + simpl. by rewrite Hd, Hmap.
    + constructor; [|done]. split; [done|]. by rewrite Hd.
Qed.

(** With any callback: the setup hands it the entities and [False]. *)
Lemma async_setup_entry_run (hass : HomeAssistant) (config_entry : ConfigEntry)
    (async_add_entities : list AirNowSensor -> bool -> M unit)
    (by_entry : gmap string loc) (c : loc) (w : World) :
  hass_data hass !! DOMAIN = Some by_entry ->
  by_entry !! entry_id config_entry = Some c ->
  exists entities,
    async_setup_entry hass config_entry async_add_entities w =
      async_add_entities entities false w
    /\ map entity_description entities = module_SENSOR_TYPES w
    /\ Forall (fun self =>
         coordinator self = c /\
         __init__ c (entity_description self) w = (Ok self, w)) entities.
Proof.
  intros Hdom Hentry.
  destruct (mapM_init_run c (module_SENSOR_TYPES w) w) as (entities & Hrun & Hmap & Hall).
  exists entities. split; [|done].
  unfold async_setup_entry, bind, lift, read.
  rewrite (dict_getitem_present _ _ _ Hdom), (dict_getitem_present _ _ _ Hentry).
  by rewrite Hrun.
Qed.

(** Without a coordinator under the entry, the setup raises [KeyError] and
    hands nothing to the host. *)
Lemma async_setup_entry_no_coordinator (hass : HomeAssistant)
    (config_entry : ConfigEntry)
    (async_add_entities : list AirNowSensor -> bool -> M unit) (w : World) :
  hass_data hass !! DOMAIN = None ->
  async_setup_entry hass config_entry async_add_entities w =
    (Raise (KeyError DOMAIN), w).
Proof.
  intros Hdom. unfold async_setup_entry, bind, lift.
  by rewrite (dict_getitem_absent _ _ Hdom).
Qed.

Lemma setup_preserves_table (hass : HomeAssistant) (config_entry : ConfigEntry)
    (w : World) :
  module_SENSOR_TYPES
    (snd (async_setup_entry hass config_entry platform_add_entities w))
  = module_SENSOR_TYPES w.
Proof.
  unfold async_setup_entry, bind, lift, read, dict_getitem.
  destruct (hass_data hass !! DOMAIN) as [by_entry|]; [|done].
  destruct (by_entry !! entry_id config_entry) as [c|]; [|done].
  destruct (mapM_init_run c (module_SENSOR_TYPES w) w) as (entities & -> & _).
  reflexivity.
Qed.

Lemma run_call_preserves_table (call : Call) (w : World) :
  module_SENSOR_TYPES (run_call call w) = module_SENSOR_TYPES w.
Proof.
  destruct call as [hass config_entry|c d|self|self|c new_data]; simpl.
  - apply setup_preserves_table.
  - reflexivity.
  - reflexivity.
  - unfold extra_state_attributes.
    destruct (extra_state_attributes_fn (entity_description self)) as [fn|];
      [|done].
    unfold bind, read, lift, ret. by destruct (fn _).
  - reflexivity.
Qed.

Lemma run_calls_preserve_table (calls : list Call) (w : World) :
  module_SENSOR_TYPES (run_calls calls w) = module_SENSOR_TYPES w.
Proof.
  revert w. induction calls as [|call calls IH]; intros w; [done|].
  change (run_calls (call :: calls) w) with (run_calls calls (run_call call w)).
  rewrite IH. apply run_call_preserves_table.
Qed.

(** C7: when [hass.data] holds coordinator [c] for the entry, the setup
    builds one entity per descriptor of the table, in the table's order,
    each bound to [c] and its descriptor, and hands that list to the host's
    [async_add_entities], once. *)
Theorem async_setup_entry_adds_one_per_description (hass : HomeAssistant)
    (config_entry : ConfigEntry) (by_entry : gmap string loc) (c : loc)
    (w : World) :
  hass_data hass !! DOMAIN = Some by_entry ->
  by_entry !! entry_id config_entry = Some c ->
  module_SENSOR_TYPES w = SENSOR_TYPES ->
  exists entities,
    async_setup_entry hass config_entry platform_add_entities w =
      (Ok tt, {|
         coordinators := coordinators w;
         module_SENSOR_TYPES := module_SENSOR_TYPES w;
         platform_entities := platform_entities w ++ [(entities, false)]
       |})
    /\ map entity_description entities = SENSOR_TYPES
    /\ length entities = length SENSOR_TYPES
    /\ Forall (fun self =>
         coordinator self = c /\
         __init__ c (entity_description self) w = (Ok self, w)) entities.
Proof.
  intros Hdom Hentry Htable.
  destruct (async_setup_entry_run hass config_entry platform_add_entities
              by_entry c w Hdom Hentry) as (entities & Hrun & Hmap & Hall).
  exists entities. rewrite Htable in Hmap.
  repeat split; [by rewrite Hrun| done | | done].
  by rewrite <- Hmap, length_map.
Qed.

End Setup.

(** ** Reading an entity *)

Section Reading.
Context {K : Const}.

(** C4: the unique id computed by the constructor is the coordinator's
    latitude, a dash, its longitude, a dash and the lower-cased key; for
    latitude 40.0, longitude -75.0 and key ["AQI"] it is
    ["40.0--75.0-aqi"]. *)
Theorem unique_id_format (c : loc) (d : AirNowEntityDescription) (w : World) :
  exists self,
    __init__ c d w = (Ok self, w)
    /\ _attr_unique_id self =
         py_str (latitude (coordinators w c)) +:+ "-"
           +:+ py_str (longitude (coordinators w c)) +:+ "-"
           +:+ str_lower (key d)
    /\ (latitude (coordinators w c) = PyFloat 40.0 ->
        longitude (coordinators w c) = PyFloat (-75.0) ->
        key d = "AQI" ->
        _attr_unique_id self = "40.0--75.0-aqi").
Proof.
  destruct (init_run c d w) as (self & Hrun & _ & _ & Hid & _).
  exists self. repeat split; [done..|].
  intros Hlat Hlon Hkey. rewrite Hid, Hlat, Hlon, Hkey.
  vm_compute. reflexivity.
Qed.

(** C5: with the snapshot [{AQI: 42, AQI_DESCRIPTION: "Moderate",
    AQI_LEVEL: 2}], whose field names and the PM2.5 key are four different
    names, the AQI entity's value is 42 and its attributes are exactly
    [{description: "Moderate", level: 2}], and the PM2.5 entity's value is
    [None]. *)
Theorem scenario_moderate (c : loc) (w : World) :
  NoDup [ATTR_API_AQI; ATTR_API_AQI_DESCRIPTION; ATTR_API_AQI_LEVEL;
         ATTR_API_PM25] ->
  data (coordinators w c) = scenario_snapshot ->
  exists aqi pm25,
    __init__ c description_aqi w = (Ok aqi, w)
    /\ __init__ c description_pm25 w = (Ok pm25, w)
    /\ native_value aqi w = (Ok (PyInt 42), w)
    /\ extra_state_attributes aqi w =
         (Ok (Some {[ "description" := PyStr "Moderate"; "level" := PyInt 2 ]}), w)
    /\ native_value pm25 w = (Ok PyNone, w).
Proof.
  rewrite !NoDup_cons, !not_elem_of_cons.
  intros ((Had & Hal & Hap & _) & (Hdl & Hdp & _) & (Hlp & _) & _) Hdata.
  destruct (init_run c description_aqi w) as (aqi & Haqi & Hca & Hda & _).
  destruct (init_run c description_pm25 w) as (pm25 & Hpm & Hcp & Hdp' & _).
  exists aqi, pm25. split; [done|]. split; [done|].
  assert (scenario_snapshot !! ATTR_API_AQI = Some (PyInt 42)) as Hv.
  { unfold scenario_snapshot.
    rewrite lookup_insert_ne by done. rewrite lookup_insert_ne by done.
    apply lookup_insert_eq. }
  assert (scenario_snapshot !! ATTR_API_AQI_DESCRIPTION = Some (PyStr "Moderate")) as Hd.
  { unfold scenario_snapshot.
    rewrite lookup_insert_ne by done. apply lookup_insert_eq. }
  assert (scenario_snapshot !! ATTR_API_AQI_LEVEL = Some (PyInt 2)) as Hl.
  { unfold scenario_snapshot. apply lookup_insert_eq. }
  assert (scenario_snapshot !! ATTR_API_PM25 = None) as Hp.
  { unfold scenario_snapshot.
    rewrite !lookup_insert_ne by done. apply lookup_empty. }
  split; [|split].
  - rewrite native_value_run, Hda, Hca, Hdata. simpl.
    by rewrite (dict_get_present _ _ _ Hv).
  - rewrite (extra_state_attributes_some aqi w _ (f_equal extra_state_attributes_fn Hda)).
    rewrite Hca, Hdata.
    by rewrite (aqi_attributes_present _ _ _ _ eq_refl Hd Hl).
  - rewrite native_value_run, Hdp', Hcp, Hdata. simpl.
    by rewrite (dict_get_absent _ _ Hp).
Qed.

(** C6: the PM2.5 and ozone descriptors have no [extra_state_attributes_fn],
    and [extra_state_attributes] of an entity built on either returns
    [None] in every world, so for every snapshot. *)
Theorem pm25_o3_no_attributes (c : loc) (w w' : World) :
  extra_state_attributes_fn description_pm25 = None
  /\ extra_state_attributes_fn description_o3 = None
  /\ (exists self,
        __init__ c description_pm25 w = (Ok self, w)
        /\ extra_state_attributes self w' = (Ok None, w'))
  /\ (exists self,
        __init__ c description_o3 w = (Ok self, w)
        /\ extra_state_attributes self w' = (Ok None, w')).
Proof.
  split; [done|]. split; [done|]. split.
  - destruct (init_run c description_pm25 w) as (self & Hrun & _ & Hd & _).
    exists self. split; [done|].
    apply extra_state_attributes_none. by rewrite Hd.
  - destruct (init_run c description_o3 w) as (self & Hrun & _ & Hd & _).
    exists self. split; [done|].
    apply extra_state_attributes_none. by rewrite Hd.
Qed.

(** C2, amended: for every descriptor of the table and every snapshot, the
    value of an entity never raises; it is [None] when the descriptor's key
    is absent and the stored value, unchanged, when it is present. The
    attributes of the PM2.5 and ozone entities are [None] on every
    snapshot, and those of the AQI entity are [{description, level}]
    whenever the snapshot holds both fields. *)
Theorem value_total_attributes_when_present (d : AirNowEntityDescription)
    (c : loc) (w w' : World) :
  In d SENSOR_TYPES ->
  exists self,
    __init__ c d w = (Ok self, w)
    /\ native_value self w' = (Ok (dict_get (data (coordinators w' c)) (key d)), w')
    /\ (data (coordinators w' c) !! key d = None ->
        native_value self w' = (Ok PyNone, w'))
    /\ (forall v, data (coordinators w' c) !! key d = Some v ->
        native_value self w' = (Ok v, w'))
    /\ (extra_state_attributes_fn d = None ->
        extra_state_attributes self w' = (Ok None, w'))
    /\ (d = description_pm25 \/ d = description_o3 ->
        extra_state_attributes_fn d = None)
    /\ (forall descr level,
        d = description_aqi ->
        data (coordinators w' c) !! ATTR_API_AQI_DESCRIPTION = Some descr ->
        data (coordinators w' c) !! ATTR_API_AQI_LEVEL = Some level ->
        extra_state_attributes self w' =
          (Ok (Some {[ "description" := descr; "level" := level ]}), w')).
Proof.
  intros Hin.
  destruct (init_run c d w) as (self & Hrun & Hc & Hd & _).
  exists self. split; [done|].
  assert (native_value self w' =
          (Ok (dict_get (data (coordinators w' c)) (key d)), w')) as Hval.
  { rewrite native_value_run, Hd, Hc. by rewrite (value_fn_table d _ Hin). }
  split; [done|]. split; [|split; [|split; [|split]]].
  - intros Habs. by rewrite Hval, (dict_get_absent _ _ Habs).
  - intros v Hv. by rewrite Hval, (dict_get_present _ _ _ Hv).
  - intros Hnone. apply extra_state_attributes_none. by rewrite Hd.
  - by intros [->| ->].
  - intros descr level -> Hdescr Hlevel.
    rewrite (extra_state_attributes_some self w' _ (f_equal extra_state_attributes_fn Hd)).
    rewrite Hc.
    by rewrite (aqi_attributes_present _ _ _ _ eq_refl Hdescr Hlevel).
Qed.

(** An entity reads through its coordinator reference: after a refresh its
    value is computed from the new snapshot. *)
Lemma native_value_follows_refresh (self : AirNowSensor)
    (new_data : gmap string PyVal) (w : World) :
  native_value self (coordinator_refresh (coordinator self) new_data w) =
    (value_fn (entity_description self) new_data,
     coordinator_refresh (coordinator self) new_data w).
Proof.
  rewrite native_value_run. simpl. by rewrite Nat.eqb_refl.
Qed.

End Reading.

(** ** The table and the module constants *)

(** C9: the keys of the descriptor table are pairwise distinct (with the
    names the spec gives the imported key constants), and the table stays
    the constant [SENSOR_TYPES] the module body bound it to, whatever the
    host then calls and however the coordinators refresh. *)
Theorem SENSOR_TYPES_fixed_distinct_keys :
  NoDup (map key (SENSOR_TYPES (K:=airnow_const)))
  /\ forall (K : Const) (calls : list Call) (w : World),
       module_SENSOR_TYPES (run_calls calls (module_load w)) = SENSOR_TYPES.
Proof.
  split.
  - apply NoDup_keys_iff. done.
  - intros K calls w. by rewrite run_calls_preserve_table.
Qed.

(** C10: the cap on parallel updates the module hands to the host is 1. *)
Theorem PARALLEL_UPDATES_is_one : PARALLEL_UPDATES = 1%Z.
Proof. reflexivity. Qed.

(** ** One coordinator, several entities

    From here on the imported constants are those of [airnow_const]. *)

Section Samples.
Local Existing Instance airnow_const.

Lemma sample_unique_id (k : string) :
  py_str (PyFloat 40.0) +:+ "-" +:+ py_str (PyFloat (-75.0)) +:+ "-" +:+ k
  = "40.0--75.0-" +:+ k.
Proof.
  replace (py_str (PyFloat 40.0)) with "40.0"%string
    by (vm_compute; reflexivity).
  replace (py_str (PyFloat (-75.0))) with "-75.0"%string
    by (vm_compute; reflexivity).
  reflexivity.
Qed.

(** C1 fails on the code: the AQI and the PM2.5 entity of one coordinator
    (latitude 40.0, longitude -75.0) get device records with different
    identifiers, since the identifier is the entity's own unique id, which
    ends in the descriptor's key. *)
Theorem device_info_differs_across_descriptions :
  let w := sample_world ∅ in
  exists aqi pm25,
    __init__ 0 description_aqi w = (Ok aqi, w)
    /\ __init__ 0 description_pm25 w = (Ok pm25, w)
    /\ coordinator aqi = coordinator pm25
    /\ identifiers (_attr_device_info aqi) = {[ ("airnow", "40.0--75.0-aqi") ]}
    /\ identifiers (_attr_device_info pm25) = {[ ("airnow", "40.0--75.0-pm2.5") ]}
    /\ _attr_device_info aqi <> _attr_device_info pm25.
Proof.
  intros w.
  destruct (init_run 0 description_aqi w)
    as (aqi & Haqi & Hca & _ & Hua & Hia).
  destruct (init_run 0 description_pm25 w)
    as (pm25 & Hpm & Hcp & _ & Hup & Hip).
  exists aqi, pm25.
  split; [done|]. split; [done|]. split; [congruence|].
  assert (_attr_unique_id aqi = "40.0--75.0-aqi") as Ea.
  { rewrite Hua. apply (sample_unique_id "aqi"). }
  assert (_attr_unique_id pm25 = "40.0--75.0-pm2.5") as Ep.
  { rewrite Hup. apply (sample_unique_id "pm2.5"). }
  split; [by rewrite Hia, Ea|]. split; [by rewrite Hip, Ep|].
  intros Heq.
  apply (device_info_eq_iff 0 _ _ w aqi pm25 Haqi Hpm) in Heq.
  discriminate Heq.
Qed.

(** C2 fails as stated: on the empty snapshot the attributes of the AQI
    entity raise [KeyError], and a value that is not a number is handed on
    as it is rather than turned into [None]. *)
Lemma attributes_raise_on_empty_snapshot :
  let w := sample_world ∅ in
  let w' := sample_world {[ "AQI" := PyStr "n/a" ]} in
  (exists self,
     __init__ 0 description_aqi w = (Ok self, w)
     /\ extra_state_attributes self w = (Raise (KeyError "AQI_DESCRIPTION"), w))
  /\ (exists self,
     __init__ 0 description_aqi w' = (Ok self, w')
     /\ native_value self w' = (Ok (PyStr "n/a"), w')).
Proof.
  intros w w'. split.
  - destruct (init_run 0 description_aqi w)
      as (self & Hrun & Hc & Hd & _).
    exists self. split; [done|].
    rewrite (extra_state_attributes_some self w _
               (f_equal extra_state_attributes_fn Hd)).
    by rewrite (aqi_attributes_no_description _ _ eq_refl)
      by (rewrite Hc; reflexivity).
  - destruct (init_run 0 description_aqi w')
      as (self & Hrun & Hc & Hd & _).
    exists self. split; [done|].
    rewrite native_value_run, Hd, Hc. reflexivity.
Qed.

(** ** The theorems at sample inputs *)

Lemma value_fn_missing_key_sample :
  In description_pm25 SENSOR_TYPES
  /\ scenario_snapshot !! key description_pm25 = None
  /\ value_fn description_pm25 scenario_snapshot = Ok PyNone.
Proof.
  assert (In description_pm25 SENSOR_TYPES) as Hin
    by (right; left; reflexivity).
  assert (scenario_snapshot !! key description_pm25 = None) as Hk
    by (vm_compute; reflexivity).
  split; [exact Hin|]. split; [exact Hk|].
  exact (value_fn_missing_key description_pm25 scenario_snapshot Hin Hk).
Defined.

Lemma value_fn_null_same_as_absent_sample :
  In description_aqi SENSOR_TYPES
  /\ value_fn description_aqi (<["AQI" := PyNone]> scenario_snapshot)
     = value_fn description_aqi (delete "AQI" scenario_snapshot)
  /\ value_fn description_aqi (delete "AQI" scenario_snapshot) = Ok PyNone.
Proof.
  assert (In description_aqi SENSOR_TYPES) as Hin by (left; reflexivity).
  split; [exact Hin|].
  exact (value_fn_null_same_as_absent description_aqi scenario_snapshot Hin).
Defined.

Lemma unique_id_format_sample :
  exists self,
    __init__ 0 description_aqi (sample_world ∅) = (Ok self, sample_world ∅)
    /\ _attr_unique_id self = "40.0--75.0-aqi".
Proof.
  destruct (unique_id_format 0 description_aqi (sample_world ∅))
    as (self & Hrun & _ & Hid).
  exists self. split; [exact Hrun|].
  apply Hid; reflexivity.
Defined.

Lemma scenario_moderate_sample :
  let w := sample_world scenario_snapshot in
  exists aqi pm25,
    __init__ 0 description_aqi w = (Ok aqi, w)
    /\ __init__ 0 description_pm25 w = (Ok pm25, w)
    /\ native_value aqi w = (Ok (PyInt 42), w)
    /\ extra_state_attributes aqi w =
         (Ok (Some {[ "description" := PyStr "Moderate"; "level" := PyInt 2 ]}), w)
    /\ native_value pm25 w = (Ok PyNone, w).
Proof.
  intros w. apply (scenario_moderate 0 w).
  - apply (bool_decide_unpack _). vm_compute. exact I.
  - reflexivity.
Defined.

Lemma async_setup_entry_sample :
  let w := sample_world scenario_snapshot in
  exists entities,
    async_setup_entry sample_hass sample_entry platform_add_entities w =
      (Ok tt, {|
         coordinators := coordinators w;
         module_SENSOR_TYPES := module_SENSOR_TYPES w;
         platform_entities := [(entities, false)]
       |})
    /\ map entity_description entities = SENSOR_TYPES
    /\ length entities = 3%nat
    /\ Forall (fun self =>
         coordinator self = 0%nat /\
         __init__ 0 (entity_description self) w = (Ok self, w)) entities.
Proof.
  intros w.
  apply (async_setup_entry_adds_one_per_description sample_hass sample_entry
           {[ "entry" := 0%nat ]} 0%nat w).
  - vm_compute. reflexivity.
  - vm_compute. reflexivity.
  - reflexivity.
Defined.

Lemma value_total_attributes_when_present_sample :
  let w := sample_world ∅ in
  let w' := sample_world scenario_snapshot in
  exists self,
    __init__ 0 description_aqi w = (Ok self, w)
    /\ native_value self w = (Ok PyNone, w)
    /\ native_value self w' = (Ok (PyInt 42), w')
    /\ extra_state_attributes self w' =
         (Ok (Some {[ "description" := PyStr "Moderate"; "level" := PyInt 2 ]}), w').
Proof.
  intros w w'.
  assert (In description_aqi SENSOR_TYPES) as Hin by (left; reflexivity).
  destruct (value_total_attributes_when_present description_aqi 0 w w Hin)
    as (self & Hrun & _ & Habsent & _).
  destruct (value_total_attributes_when_present description_aqi 0 w w' Hin)
    as (self' & Hrun' & _ & _ & Hpresent & _ & _ & Hattrs).
  assert (self' = self) as -> by congruence.
  exists self. split; [exact Hrun|]. split; [|split].
  - apply Habsent. reflexivity.
  - apply Hpresent. vm_compute. reflexivity.
  - apply Hattrs; [reflexivity| vm_compute; reflexivity ..].
Defined.

End Samples.

(** ** Further properties of the module *)

Section Further.
Context {K : Const}.

(** X1: when [hass.data] has no entry for the domain, or none for the
    config entry under it, the setup raises [KeyError] for the key it
    missed and returns before the callback is called: whatever the
    callback is, the world is as it was. *)
Theorem async_setup_entry_missing_coordinator (hass : HomeAssistant)
    (config_entry : ConfigEntry)
    (async_add_entities : list AirNowSensor -> bool -> M unit) (w : World) :
  hass_data hass !! DOMAIN = None
  \/ (exists by_entry,
        hass_data hass !! DOMAIN = Some by_entry
        /\ by_entry !! entry_id config_entry = None) ->
  exists k,
    async_setup_entry hass config_entry async_add_entities w =
      (Raise (KeyError k), w)
    /\ (hass_data hass !! DOMAIN = None -> k = DOMAIN)
    /\ (is_Some (hass_data hass !! DOMAIN) -> k = entry_id config_entry).
Proof.
  intros [Hdom | (by_entry & Hdom & Hentry)].
  - exists DOMAIN. split; [|split].
    + by apply async_setup_entry_no_coordinator.
    + done.
    + rewrite Hdom. by intros [? ?].
  - exists (entry_id config_entry). split; [|split].
    + unfold async_setup_entry, bind, lift.
      rewrite (dict_getitem_present _ _ _ Hdom).
      by rewrite (dict_getitem_absent _ _ Hentry).
    + by rewrite Hdom.
    + done.
Qed.

(** X2: the attributes of the AQI entity, on any snapshot: the two-entry
    dict [{description, level}] when the snapshot holds both fields,
    [KeyError] for the description field when that one is missing (whether
    or not the level is there), and [KeyError] for the level field when only
    that one is missing. The world is never changed. *)
Theorem aqi_attributes_by_cases (c : loc) (w w' : World) :
  exists self,
    __init__ c description_aqi w = (Ok self, w)
    /\ extra_state_attributes self w' =
         (match data (coordinators w' c) !! ATTR_API_AQI_DESCRIPTION,
                data (coordinators w' c) !! ATTR_API_AQI_LEVEL with
          | Some descr, Some level =>
              Ok (Some {[ "description" := descr; "level" := level ]})
          | None, _ => Raise (KeyError ATTR_API_AQI_DESCRIPTION)
          | Some _, None => Raise (KeyError ATTR_API_AQI_LEVEL)
          end, w').
Proof.
  destruct (init_run c description_aqi w) as (self & Hrun & Hc & Hd & _).
  exists self. split; [done|].
  rewrite (extra_state_attributes_some self w' _
             (f_equal extra_state_attributes_fn Hd)).
  rewrite Hc. unfold dict_getitem.
  destruct (data (coordinators w' c) !! ATTR_API_AQI_DESCRIPTION) as [descr|];
    [|done].
  destruct (data (coordinators w' c) !! ATTR_API_AQI_LEVEL) as [level|];
    done.
Qed.

(** X3: a [value_fn] of the table looks at its own key only: it returns
    what is stored under that key, and neither storing nor removing a
    value under another key changes its result. *)
Theorem value_fn_own_key_only (d : AirNowEntityDescription)
    (snapshot : gmap string PyVal) (k : string) (v : PyVal) :
  In d SENSOR_TYPES ->
  value_fn d (<[key d := v]> snapshot) = Ok v
  /\ (k <> key d ->
      value_fn d (<[k := v]> snapshot) = value_fn d snapshot
      /\ value_fn d (delete k snapshot) = value_fn d snapshot).
Proof.
  intros Hd. rewrite !(value_fn_table d _ Hd). split.
  - unfold dict_get. by rewrite lookup_insert_eq.
  - intros Hk. unfold dict_get.
    by rewrite lookup_insert_ne, lookup_delete_ne.
Qed.

(** What one setup call does to the world, with the host's callback. *)
Lemma setup_effect (hass : HomeAssistant) (config_entry : ConfigEntry)
    (w : World) :
  let r := async_setup_entry hass config_entry platform_add_entities w in
  coordinators (snd r) = coordinators w
  /\ module_SENSOR_TYPES (snd r) = module_SENSOR_TYPES w
  /\ ((exists k,
         fst r = Raise (KeyError k)
         /\ platform_entities (snd r) = platform_entities w)
      \/ (exists entities,
         fst r = Ok tt
         /\ platform_entities (snd r) =
              platform_entities w ++ [(entities, false)]
         /\ map entity_description entities = module_SENSOR_TYPES w)).
Proof.
  destruct (hass_data hass !! DOMAIN) as [by_entry|] eqn:Hdom.
  - destruct (by_entry !! entry_id config_entry) as [c|] eqn:Hentry.
    + destruct (async_setup_entry_run hass config_entry platform_add_entities
                  by_entry c w Hdom Hentry) as (entities & Hrun & Hmap & _).
      cbv zeta. rewrite Hrun. split; [done|]. split; [done|].
      right. by exists entities.
    + cbv zeta. unfold async_setup_entry, bind, lift.
      rewrite (dict_getitem_present _ _ _ Hdom).
      rewrite (dict_getitem_absent _ _ Hentry).
      split; [done|]. split; [done|]. left. by eexists.
  - cbv zeta. rewrite (async_setup_entry_no_coordinator _ _ _ _ Hdom).
    split; [done|]. split; [done|]. left. by eexists.
Qed.

(** Reading an entity and constructing one leave the world as it is. *)
Lemma reads_leave_world (w : World) :
  (forall c d, snd (__init__ c d w) = w)
  /\ (forall self, snd (native_value self w) = w)
  /\ (forall self, snd (extra_state_attributes self w) = w).
Proof.
  split; [done|]. split; [done|].
  intros self. unfold extra_state_attributes.
  destruct (extra_state_attributes_fn (entity_description self)) as [fn|];
    [|done].
  unfold bind, read, lift, ret. by destruct (fn _).
Qed.

(** X4: one setup call with the host's callback never touches a
    coordinator or the table; it either raises [KeyError] and leaves the
    registered entities as they were, or returns [None] and adds exactly one
    batch, flagged [False], with one entity per descriptor of the table. *)
Theorem async_setup_entry_frame (hass : HomeAssistant)
    (config_entry : ConfigEntry) (w : World) :
  let r := async_setup_entry hass config_entry platform_add_entities w in
  coordinators (snd r) = coordinators w
  /\ module_SENSOR_TYPES (snd r) = module_SENSOR_TYPES w
  /\ ((exists k,
         fst r = Raise (KeyError k)
         /\ platform_entities (snd r) = platform_entities w)
      \/ (exists entities,
         fst r = Ok tt
         /\ platform_entities (snd r) =
              platform_entities w ++ [(entities, false)]
         /\ map entity_description entities = module_SENSOR_TYPES w)).
Proof. apply setup_effect. Qed.

(** The unique id of an entity is the coordinator's position followed by
    the lower-cased key. *)
Lemma unique_id_of_init (c : loc) (d : AirNowEntityDescription) (w : World)
    (self : AirNowSensor) :
  __init__ c d w = (Ok self, w) ->
  _attr_unique_id self =
    (py_str (latitude (coordinators w c)) +:+ "-"
       +:+ py_str (longitude (coordinators w c)) +:+ "-")
    +:+ str_lower (key d).
Proof.
  destruct (init_run c d w) as (s & Hs & _ & _ & Hid & _).
  rewrite Hs. intros [= <-]. rewrite Hid.
  rewrite !append_assoc. reflexivity.
Qed.


(** The unique ids of the entities of one list comprehension. *)
Lemma unique_ids_of_entities (c : loc) (w : World)
    (entities : list AirNowSensor) :
  Forall (fun self =>
    coordinator self = c /\
    __init__ c (entity_description self) w = (Ok self, w)) entities ->
  _attr_unique_id <$> entities =
    (fun d =>
       (py_str (latitude (coordinators w c)) +:+ "-"
          +:+ py_str (longitude (coordinators w c)) +:+ "-")
       +:+ d) <$> ((fun d => str_lower (key d)) <$> (entity_description <$> entities)).
Proof.
  induction 1 as [|self entities [_ Hself] _ IH]; [done|].
  rewrite !fmap_cons. f_equal; [|done].
  by apply unique_id_of_init.
Qed.

(** X6: when the keys of the table are pairwise different up to ASCII
    case, the entities a setup call hands to the host have pairwise
    different unique ids. *)
Theorem async_setup_entry_unique_ids (hass : HomeAssistant)
    (config_entry : ConfigEntry) (by_entry : gmap string loc) (c : loc)
    (w : World) :
  hass_data hass !! DOMAIN = Some by_entry ->
  by_entry !! entry_id config_entry = Some c ->
  NoDup ((fun d => str_lower (key d)) <$> module_SENSOR_TYPES w) ->
  exists entities,
    async_setup_entry hass config_entry platform_add_entities w =
      platform_add_entities entities false w
    /\ NoDup (_attr_unique_id <$> entities).
Proof.
  intros Hdom Hentry Hkeys.
  destruct (async_setup_entry_run hass config_entry platform_add_entities
              by_entry c w Hdom Hentry) as (entities & Hrun & Hmap & Hall).
  exists entities. split; [done|].
  rewrite (unique_ids_of_entities c w entities Hall).
  apply NoDup_fmap_2.
  - intros a b. apply append_inv_head.
  - change (entity_description <$> entities)
      with (map entity_description entities).
    by rewrite Hmap.
Qed.

(** X7: the entities a setup call hands to the host are read as the
    table says: in every later world the value of each is what
    [data.get] finds under its descriptor's key in the snapshot of the
    coordinator of the entry, and it is never an exception. *)
Theorem async_setup_entry_then_native_value (hass : HomeAssistant)
    (config_entry : ConfigEntry) (by_entry : gmap string loc) (c : loc)
    (w : World) :
  hass_data hass !! DOMAIN = Some by_entry ->
  by_entry !! entry_id config_entry = Some c ->
  module_SENSOR_TYPES w = SENSOR_TYPES ->
  exists entities,
    async_setup_entry hass config_entry platform_add_entities w =
      platform_add_entities entities false w
    /\ map (fun self => key (entity_description self)) entities =
         [ATTR_API_AQI; ATTR_API_PM25; ATTR_API_O3]
    /\ Forall (fun self => forall w',
         native_value self w' =
           (Ok (dict_get (data (coordinators w' c))
                         (key (entity_description self))), w')) entities.
Proof.
  intros Hdom Hentry Htable.
  destruct (async_setup_entry_run hass config_entry platform_add_entities
              by_entry c w Hdom Hentry) as (entities & Hrun & Hmap & Hall).
  rewrite Htable in Hmap.
  exists entities. split; [done|]. split.
  - rewrite <- keys_SENSOR_TYPES, <- Hmap. by rewrite map_map.
  - assert (Forall (fun self => In (entity_description self) SENSOR_TYPES)
              entities) as Hin.
    { rewrite <- Hmap. apply Forall_forall. intros self Hself.
      apply in_map_iff. exists self. split; [done|].
      by apply list_elem_of_In. }
    apply Forall_forall. intros self Hself w'.
    rewrite Forall_forall in Hall. destruct (Hall self Hself) as [Hc _].
    rewrite Forall_forall in Hin.
    rewrite native_value_run, Hc.
    by rewrite (value_fn_table _ _ (Hin self Hself)).
Qed.

(** X8: the constructor does not look at the snapshot: in two worlds in
    which the coordinator has the same latitude and longitude, whatever
    its snapshots are, it builds the same entity. *)
Theorem init_ignores_snapshot (c : loc) (d : AirNowEntityDescription)
    (w1 w2 : World) :
  latitude (coordinators w1 c) = latitude (coordinators w2 c) ->
  longitude (coordinators w1 c) = longitude (coordinators w2 c) ->
  exists self,
    __init__ c d w1 = (Ok self, w1)
    /\ __init__ c d w2 = (Ok self, w2).
Proof.
  intros Hlat Hlon.
  destruct (init_run c d w1) as (self & Hrun & _).
  exists self. split; [done|].
  injection Hrun as <-.
  unfold __init__, bind, read, ret.
  by rewrite Hlat, Hlon.
Qed.

(** One step of the module or of the host: what it adds to the registered
    entities, and what it does to the coordinators. *)
Lemma run_call_batches (call : Call) (w : World) :
  exists new,
    platform_entities (run_call call w) = platform_entities w ++ new
    /\ Forall (fun batch =>
         snd batch = false /\
         map entity_description (fst batch) = module_SENSOR_TYPES w) new
    /\ ((forall c new_data, call <> HostRefresh c new_data) ->
        coordinators (run_call call w) = coordinators w).
Proof.
  destruct call as [hass config_entry|c d|self|self|c new_data];
    cbn [run_call].
  - destruct (setup_effect hass config_entry w)
      as (Hc & _ & [(k & _ & Hp) | (entities & _ & Hp & Hmap)]).
    + exists []. rewrite Hp, app_nil_r. by repeat split.
    + exists [(entities, false)]. split; [done|]. split; [|done].
      by repeat constructor.
  - exists []. rewrite app_nil_r. by repeat split.
  - exists []. rewrite app_nil_r. by repeat split.
  - destruct (reads_leave_world w) as (_ & _ & ->).
    exists []. rewrite app_nil_r. by repeat split.
  - exists []. rewrite app_nil_r. split; [done|]. split; [done|].
    intros Hno. by destruct (Hno c new_data).
Qed.

Lemma run_calls_batches (calls : list Call) (w : World) :
  exists new,
    platform_entities (run_calls calls w) = platform_entities w ++ new
    /\ Forall (fun batch =>
         snd batch = false /\
         map entity_description (fst batch) = module_SENSOR_TYPES w) new
    /\ ((forall c new_data, HostRefresh c new_data ∉ calls) ->
        coordinators (run_calls calls w) = coordinators w).
Proof.
  revert w. induction calls as [|call calls IH]; intros w.
  - exists []. rewrite app_nil_r. by repeat split.
  - change (run_calls (call :: calls) w)
      with (run_calls calls (run_call call w)).
    destruct (run_call_batches call w) as (new1 & Hp1 & Hall1 & Hc1).
    destruct (IH (run_call call w)) as (new2 & Hp2 & Hall2 & Hc2).
    rewrite run_call_preserves_table in Hall2.
    exists (new1 ++ new2). split; [|split].
    + by rewrite Hp2, Hp1, app_assoc.
    + by apply Forall_app.
    + intros Hno. rewrite Hc2, Hc1; [done| |].
      * intros c new_data ->. apply (Hno c new_data). by left.
      * intros c new_data Hin. apply (Hno c new_data). by right.
Qed.

(** X9: whatever the host calls after the module is loaded, and however
    the coordinators refresh, the entities registered so far stay
    registered, in order; every batch added since carries the flag [False]
    and holds one entity per descriptor of [SENSOR_TYPES], in the table's
    order; and as long as no coordinator refreshes, the coordinators are as
    they were: the module itself never writes to one. *)
Theorem registered_batches_invariant (calls : list Call) (w : World) :
  exists new,
    platform_entities (run_calls calls (module_load w)) =
      platform_entities w ++ new
    /\ Forall (fun batch =>
         snd batch = false /\
         map entity_description (fst batch) = SENSOR_TYPES) new
    /\ ((forall c new_data, HostRefresh c new_data ∉ calls) ->
        coordinators (run_calls calls (module_load w)) = coordinators w).
Proof.
  destruct (run_calls_batches calls (module_load w)) as (new & Hp & Hall & Hc).
  by exists new.
Qed.

End Further.

(** ** The further properties at sample inputs *)

Section FurtherSamples.
Local Existing Instance airnow_const.

Lemma async_setup_entry_missing_coordinator_sample :
  let w := sample_world ∅ in
  async_setup_entry {| hass_data := ∅ |} sample_entry platform_add_entities w
  = (Raise (KeyError "airnow"), w).
Proof.
  intros w.
  destruct (async_setup_entry_missing_coordinator {| hass_data := ∅ |}
              sample_entry platform_add_entities w) as (k & Hrun & Hk & _).
  - left. reflexivity.
  - rewrite Hrun, (Hk eq_refl). reflexivity.
Defined.

Lemma value_fn_own_key_only_sample :
  In description_aqi SENSOR_TYPES
  /\ value_fn description_aqi (<["AQI" := PyInt 7]> scenario_snapshot)
     = Ok (PyInt 7)
  /\ value_fn description_aqi (<["PM2.5" := PyInt 7]> scenario_snapshot)
     = value_fn description_aqi scenario_snapshot.
Proof.
  assert (In description_aqi SENSOR_TYPES) as Hin by (left; reflexivity).
  split; [exact Hin|].
  destruct (value_fn_own_key_only description_aqi scenario_snapshot
              "PM2.5" (PyInt 7) Hin) as [Hown Hother].
  split; [exact Hown|].
  apply Hother. discriminate.
Defined.


Lemma async_setup_entry_unique_ids_sample :
  let w := sample_world ∅ in
  exists entities,
    async_setup_entry sample_hass sample_entry platform_add_entities w =
      platform_add_entities entities false w
    /\ NoDup (_attr_unique_id <$> entities).
Proof.
  intros w.
  apply (async_setup_entry_unique_ids sample_hass sample_entry
           {[ "entry" := 0%nat ]} 0%nat w).
  - vm_compute. reflexivity.
  - vm_compute. reflexivity.
  - apply (bool_decide_unpack _). vm_compute. exact I.
Defined.

Lemma async_setup_entry_then_native_value_sample :
  let w := sample_world ∅ in
  exists entities,
    async_setup_entry sample_hass sample_entry platform_add_entities w =
      platform_add_entities entities false w
    /\ map (fun self => key (entity_description self)) entities =
         ["AQI"; "PM2.5"; "O3"]
    /\ Forall (fun self => forall w',
         native_value self w' =
           (Ok (dict_get (data (coordinators w' 0%nat))
                         (key (entity_description self))), w')) entities.
Proof.
  intros w.
  assert (hass_data sample_hass !! DOMAIN = Some {[ "entry" := 0%nat ]}) as Hdom
    by (vm_compute; reflexivity).
  assert (({[ "entry" := 0%nat ]} : gmap string loc) !! entry_id sample_entry
          = Some 0%nat) as Hentry by (vm_compute; reflexivity).
  destruct (async_setup_entry_then_native_value sample_hass sample_entry
              {[ "entry" := 0%nat ]} 0%nat w Hdom Hentry eq_refl)
    as (entities & Hrun & Hkeys & Hall).
  exists entities. split; [exact Hrun|]. split; [exact Hkeys|exact Hall].
Defined.

Lemma init_ignores_snapshot_sample :
  exists self,
    __init__ 0 description_o3 (sample_world ∅) = (Ok self, sample_world ∅)
    /\ __init__ 0 description_o3 (sample_world scenario_snapshot) =
         (Ok self, sample_world scenario_snapshot).
Proof.
  apply (init_ignores_snapshot 0 description_o3 (sample_world ∅)
           (sample_world scenario_snapshot)); reflexivity.
Defined.

Lemma registered_batches_invariant_sample :
  let w := sample_world scenario_snapshot in
  let calls := [CallSetupEntry sample_hass sample_entry] in
  coordinators (run_calls calls (module_load w)) = coordinators w.
Proof.
  intros w calls.
  destruct (registered_batches_invariant calls w) as (new & _ & _ & Hc).
  apply Hc. intros c new_data Hin.
  apply list_elem_of_singleton in Hin. discriminate Hin.
Defined.

End FurtherSamples.
